(** * The ratings operator (src/charm.py), embedded and checked against its
      specification.

    The operator is a set of event handlers that read relation databags,
    talk to an external container runner and write the unit status.  The
    handlers are embedded as computations in a state-and-exception monad:
    a Python exception keeps every mutation made before it was raised, so a
    computation returns its outcome together with the state it left
    behind.  Logging is not part of the state. *)

From stdpp Require Import base option strings pretty gmap.

Open Scope string_scope.

(** ** Unit status (ops.model) *)

Inductive Status :=
| ActiveStatus (message : string)
| BlockedStatus (message : string)
| MaintenanceStatus (message : string)
| WaitingStatus (message : string).

Definition status_message (s : Status) : string :=
  match s with
  | ActiveStatus m | BlockedStatus m | MaintenanceStatus m | WaitingStatus m => m
  end.

(** ** Exceptions

    Every exception below is a subclass of [Exception], hence caught by
    [except Exception as e].  [str_exn] is Python's [str(e)]. *)

Inductive exn :=
| AttributeError (cls attr : string)
| KeyError (key_repr : string)
| SecretNotFoundError
| ExternalError (text : string).

Definition str_exn (e : exn) : string :=
  match e with
  | AttributeError cls attr =>
      "'" +:+ cls +:+ "' object has no attribute '" +:+ attr +:+ "'"
  | KeyError r => r
  | SecretNotFoundError => ""
  | ExternalError text => text
  end.

(** [repr] of a string key, as it shows in the text of a KeyError. *)
Definition repr_str (k : string) : string := "'" +:+ k +:+ "'".

(** ** The external runner and the host

    The container runner is an outside collaborator: what is known of a
    call is whether it returns or raises, and with which text.  Its calls
    are recorded in the order they are made. *)

Inductive ConfigureArgs :=
| Positional (options : gmap string string)
| Keywords (jwt_secret : option string)
           (postgres_uri migration_postgres_uri log_level env : string).

Inductive RunnerCall :=
| CallInstall
| CallRun
| CallConfigure (args : ConfigureArgs).

Record Runner := {
  install_raises : option string;
  run_raises : option string;
  configure_raises : ConfigureArgs → option string
}.

(** What a handler reads and never writes: the relations the model reports,
    leadership, the charm configuration, the env file loaded by [__init__],
    and the sources of fresh values ([secrets.token_hex(24)] and the ids
    the host gives to new secrets). *)
Record Host := {
  database_relation : option nat;
  relation_data : gmap nat (gmap string string);
  is_leader : bool;
  config : gmap string string;
  env_vars : gmap string string;
  runner : Runner;
  token_hex : nat → string;
  fresh_secret_id : nat → string
}.

(** What a handler can change. [peers_data] is the application databag of
    the "ratings-peers" relation, [None] when the relation does not
    exist. *)
Record World := {
  unit_status : Status;
  peers_data : option (gmap string string);
  secret_store : gmap string (gmap string string);
  environ : gmap string string;
  opened_ports : list (string * nat);
  runner_calls : list RunnerCall;
  tokens_drawn : nat;
  secrets_added : nat
}.

Definition with_unit_status (s : Status) (w : World) : World :=
  {| unit_status := s; peers_data := peers_data w;
     secret_store := secret_store w; environ := environ w;
     opened_ports := opened_ports w; runner_calls := runner_calls w;
     tokens_drawn := tokens_drawn w; secrets_added := secrets_added w |}.

Definition with_peers_data (p : option (gmap string string)) (w : World) : World :=
  {| unit_status := unit_status w; peers_data := p;
     secret_store := secret_store w; environ := environ w;
     opened_ports := opened_ports w; runner_calls := runner_calls w;
     tokens_drawn := tokens_drawn w; secrets_added := secrets_added w |}.

Definition with_secret_store (s : gmap string (gmap string string)) (w : World) : World :=
  {| unit_status := unit_status w; peers_data := peers_data w;
     secret_store := s; environ := environ w;
     opened_ports := opened_ports w; runner_calls := runner_calls w;
     tokens_drawn := tokens_drawn w; secrets_added := secrets_added w |}.

Definition with_environ (e : gmap string string) (w : World) : World :=
  {| unit_status := unit_status w; peers_data := peers_data w;
     secret_store := secret_store w; environ := e;
     opened_ports := opened_ports w; runner_calls := runner_calls w;
     tokens_drawn := tokens_drawn w; secrets_added := secrets_added w |}.

Definition with_opened_ports (ps : list (string * nat)) (w : World) : World :=
  {| unit_status := unit_status w; peers_data := peers_data w;
     secret_store := secret_store w; environ := environ w;
     opened_ports := ps; runner_calls := runner_calls w;
     tokens_drawn := tokens_drawn w; secrets_added := secrets_added w |}.

Definition with_runner_calls (cs : list RunnerCall) (w : World) : World :=
  {| unit_status := unit_status w; peers_data := peers_data w;
     secret_store := secret_store w; environ := environ w;
     opened_ports := opened_ports w; runner_calls := cs;
     tokens_drawn := tokens_drawn w; secrets_added := secrets_added w |}.

Definition with_tokens_drawn (n : nat) (w : World) : World :=
  {| unit_status := unit_status w; peers_data := peers_data w;
     secret_store := secret_store w; environ := environ w;
     opened_ports := opened_ports w; runner_calls := runner_calls w;
     tokens_drawn := n; secrets_added := secrets_added w |}.

Definition with_secrets_added (n : nat) (w : World) : World :=
  {| unit_status := unit_status w; peers_data := peers_data w;
     secret_store := secret_store w; environ := environ w;
     opened_ports := opened_ports w; runner_calls := runner_calls w;
     tokens_drawn := tokens_drawn w; secrets_added := n |}.

(** ** The monad of handlers *)

Inductive result (A : Type) :=
| Ok (a : A)
| Raise (e : exn).
Arguments Ok {A} a.
Arguments Raise {A} e.

Definition M (A : Type) : Type := World → result A * World.

Definition ret {A} (a : A) : M A := λ w, (Ok a, w).

Definition raise {A} (e : exn) : M A := λ w, (Raise e, w).

Definition bind {A B} (m : M A) (k : A → M B) : M B :=
  λ w, match m w with
       | (Ok a, w') => k a w'
       | (Raise e, w') => (Raise e, w')
       end.

(** [try: body except Exception as e: handler e] *)
Definition try_except {A} (body : M A) (handler : exn → M A) : M A :=
  λ w, match body w with
       | (Ok a, w') => (Ok a, w')
       | (Raise e, w') => handler e w'
       end.

Definition modify (f : World → World) : M unit := λ w, (Ok tt, f w).

Definition gets {A} (f : World → A) : M A := λ w, (Ok (f w), w).

#[global] Instance M_ret : MRet M := @ret.
#[global] Instance M_bind : MBind M := λ A B k m, bind m k.

(** ** Python truthiness and dictionary access *)

(** [if x:] for [x] that is [None] or a [str].  Where the guard holds [x]
    is a string, read below with [default ""]. *)
Definition truthy (x : option string) : bool :=
  match x with
  | None => false
  | Some s => negb (String.eqb s "")
  end.

(** [d[k]] *)
Definition getitem (d : gmap string string) (k : string) : M string :=
  match d !! k with
  | Some v => ret v
  | None => raise (KeyError (repr_str k))
  end.

(** [if d:] for a dictionary: true when it has an entry. *)
Definition truthy_dict (d : gmap string string) : bool :=
  negb (bool_decide (d = ∅)).

(** [self.unit.status = s] *)
Definition set_status (s : Status) : M unit := modify (with_unit_status s).

(** ** Module constants *)

Definition PORT : nat := 443.
Definition NAME : string := "ratings".
Definition HOST : string := "0.0.0.0".

(** ** The charm object

    [__init__] stores the runner under [_container_runner], the database
    integration under [_database] and the loaded env file under
    [_env_vars]; the instance has no other attribute with a leading
    underscore.  Looking up any other such name raises AttributeError. *)

Inductive Attr :=
| TheContainerRunner
| TheDatabaseRequires
| TheEnvVars.

Definition getattr_self (name : string) : M Attr :=
  if String.eqb name "_container_runner" then mret TheContainerRunner
  else if String.eqb name "_database" then mret TheDatabaseRequires
  else if String.eqb name "_env_vars" then mret TheEnvVars
  else raise (AttributeError "RatingsCharm" name).

(** [obj.meth] for a method of the runner: only the runner has it. *)
Definition runner_method (obj : Attr) (meth : string) : M unit :=
  match obj with
  | TheContainerRunner => mret tt
  | TheDatabaseRequires => raise (AttributeError "DatabaseRequires" meth)
  | TheEnvVars => raise (AttributeError "dict" meth)
  end.

Section Charm.

Variable host : Host.

(** A call of the runner is recorded, then returns or raises as the runner
    decides. *)
Definition call_runner (c : RunnerCall) (outcome : option string) : M unit :=
  modify (λ w, with_runner_calls (runner_calls w ++ [c]) w);;
  match outcome with
  | None => mret tt
  | Some text => raise (ExternalError text)
  end.

Definition runner_install : M unit :=
  call_runner CallInstall (install_raises (runner host)).

Definition runner_run : M unit :=
  call_runner CallRun (run_raises (runner host)).

Definition runner_configure (args : ConfigureArgs) : M unit :=
  call_runner (CallConfigure args) (configure_raises (runner host) args).

(** [self.unit.open_port(protocol, port)] *)
Definition open_port (protocol : string) (port : nat) : M unit :=
  modify (λ w, with_opened_ports (opened_ports w ++ [(protocol, port)]) w).

(** [self.model.get_secret(id=secret_id)]: the content of the secret, or
    SecretNotFoundError. *)
Definition get_secret (secret_id : string) : M (gmap string string) :=
  store ← gets secret_store;
  match store !! secret_id with
  | Some content => mret content
  | None => raise SecretNotFoundError
  end.

(** [secrets.token_hex(24)] *)
Definition draw_token_hex : M string :=
  n ← gets tokens_drawn;
  modify (with_tokens_drawn (S n));;
  mret (token_hex host n).

(** [self.app.add_secret(content)]: stores the content under a new id and
    returns the id. *)
Definition add_secret (content : gmap string string) : M string :=
  n ← gets secrets_added;
  let sid := fresh_secret_id host n in
  modify (with_secrets_added (S n));;
  modify (λ w, with_secret_store (<[sid := content]> (secret_store w)) w);;
  mret sid.

(** [relation.data[self.app][k] = v] on the peer relation. *)
Definition peers_setitem (k v : string) : M unit :=
  modify (λ w, with_peers_data (insert k v <$> peers_data w) w).

(** [os.environ[k] = v] *)
Definition environ_setitem (k v : string) : M unit :=
  modify (λ w, with_environ (<[k := v]> (environ w)) w).

(** ** Handlers of src/charm.py *)

(** The [try] statement of [_on_start] (lines 84 to 93). *)
Definition _on_start_try : M unit :=
  try_except
    ((if truthy_dict (env_vars host) then
        r ← getattr_self "_container_runner";
        runner_method r "configure";;
        runner_configure (Positional (env_vars host))
      else mret tt);;
     set_status (ActiveStatus ""))
    (λ e,
       set_status
         (BlockedStatus ("Failed to start Ratings service: " +:+ str_exn e))).

Definition _on_start : M unit :=
  r ← getattr_self "_container_runner";
  runner_method r "run";;
  runner_run;;
  _on_start_try;;
  set_status (ActiveStatus "").

Definition _on_upgrade_charm : M unit :=
  set_status (MaintenanceStatus "upgrade hook called").

Definition _on_install : M unit :=
  set_status (MaintenanceStatus "Installing Container Runner");;
  try_except
    (r ← getattr_self "_container_runner";
     runner_method r "install";;
     runner_install;;
     set_status (MaintenanceStatus "Installation complete, waiting for database."))
    (λ e, set_status (BlockedStatus (str_exn e))).

Definition _db_connection_string : M string :=
  match database_relation host with
  | None => mret ""
  | Some relation_id =>
      match relation_data host !! relation_id with
      | None => raise (KeyError (pretty relation_id))
      | Some data =>
          let username := data !! "username" in
          let password := data !! "password" in
          let endpoints := data !! "endpoints" in
          if truthy username && truthy password && truthy endpoints then
            mret ("postgres://" +:+ default "" username +:+ ":"
                  +:+ default "" password +:+ "@"
                  +:+ default "" endpoints +:+ "/ratings")
          else mret ""
      end
  end.

Definition _jwt_secret : M (option string) :=
  relation ← gets peers_data;
  match relation with
  | None => mret (Some "")
  | Some databag =>
      let secret_id := databag !! "jwt-secret-id" in
      if truthy secret_id then
        secret ← get_secret (default "" secret_id);
        mret (secret !! "jwt-secret")
      else if is_leader host then
        tok ← draw_token_hex;
        let content : gmap string string := {[ "jwt-secret" := tok ]} in
        sid ← add_secret content;
        peers_setitem "jwt-secret-id" sid;;
        v ← getitem content "jwt-secret";
        mret (Some v)
      else mret (Some "")
  end.

Definition _set_proxy : M unit :=
  proxy_url ← gets (λ w, environ w !! "JUJU_CHARM_HTTP_PROXY");
  if truthy proxy_url then
    environ_setitem "HTTP_PROXY" (default "" proxy_url);;
    environ_setitem "HTTPS_PROXY" (default "" proxy_url)
  else mret tt.

Definition _update_service_config : M unit :=
  match database_relation host with
  | None => set_status (WaitingStatus "Waiting for database relation")
  | Some _ =>
      set_status (MaintenanceStatus "Attempting to update Ratings config.");;
      connection_string ← _db_connection_string;
      jwt_secret ← _jwt_secret;
      _set_proxy;;
      try_except
        (r ← getattr_self "_ratings";
         runner_method r "configure";;
         log_level ← getitem (config host) "log-level";
         env ← getitem (config host) "env";
         runner_configure
           (Keywords jwt_secret connection_string connection_string log_level env);;
         open_port "tcp" PORT;;
         set_status (ActiveStatus ""))
        (λ e,
           set_status
             (BlockedStatus ("Failed to start Ratings service: " +:+ str_exn e)))
  end.

Definition _on_database_created : M unit := _update_service_config.

End Charm.

(** ** Sample hosts and states *)

Definition quiet_runner : Runner :=
  {| install_raises := None; run_raises := None;
     configure_raises := λ _, None |}.

Definition sample_tokens (n : nat) : string := "a1b2c3-" +:+ pretty n.
Definition sample_ids (n : nat) : string := "secret:" +:+ pretty n.

Definition databag_u_p : gmap string string :=
  {[ "username" := "u"; "password" := "p"; "endpoints" := "host:5432" ]}.

Definition sample_config : gmap string string :=
  {[ "log-level" := "info"; "env" := "prod" ]}.

Definition host_with (rel : option nat) (leader : bool) (vars : gmap string string)
    (r : Runner) : Host :=
  {| database_relation := rel;
     relation_data := {[ 7 := databag_u_p ]};
     is_leader := leader;
     config := sample_config;
     env_vars := vars;
     runner := r;
     token_hex := sample_tokens;
     fresh_secret_id := sample_ids |}.

Definition world_with (peers : option (gmap string string))
    (env : gmap string string) : World :=
  {| unit_status := MaintenanceStatus "";
     peers_data := peers;
     secret_store := ∅;
     environ := env;
     opened_ports := [];
     runner_calls := [];
     tokens_drawn := 0;
     secrets_added := 0 |}.

Definition failing_installer : Runner :=
  {| install_raises := Some "snap install failed"; run_raises := None;
     configure_raises := λ _, None |}.

Definition failing_starter : Runner :=
  {| install_raises := None; run_raises := Some "runner failed";
     configure_raises := λ _, None |}.

Definition failing_configurer : Runner :=
  {| install_raises := None; run_raises := None;
     configure_raises := λ _, Some "configure failed" |}.

Definition ready_host : Host := host_with (Some 7) true ∅ quiet_runner.
Definition follower_host : Host := host_with (Some 7) false ∅ quiet_runner.
Definition leader_without_database : Host := host_with None true ∅ quiet_runner.
Definition host_install_fails : Host := host_with None false ∅ failing_installer.
Definition host_run_fails : Host := host_with None false ∅ failing_starter.
Definition host_configure_fails : Host :=
  host_with None false {[ "KEY" := "value" ]} failing_configurer.

Definition blank_world : World := world_with None ∅.
Definition world_with_peers : World := world_with (Some ∅) ∅.
Definition world_other_key : World := world_with (Some {[ "other" := "x" ]}) ∅.
Definition world_with_proxy : World :=
  world_with (Some ∅) {[ "JUJU_CHARM_HTTP_PROXY" := "http://squid:3128" ]}.
Definition world_stale_id : World :=
  world_with (Some {[ "jwt-secret-id" := "secret:gone" ]}) ∅.
Definition world_empty_proxy : World :=
  world_with None {[ "JUJU_CHARM_HTTP_PROXY" := "" ]}.

(** The state after the leader has created the secret. *)
Definition after_creation (host : Host) (databag : gmap string string)
    (w : World) : World :=
  let tok := token_hex host (tokens_drawn w) in
  let sid := fresh_secret_id host (secrets_added w) in
  {| unit_status := unit_status w;
     peers_data := Some (<["jwt-secret-id" := sid]> databag);
     secret_store := <[sid := {[ "jwt-secret" := tok ]}]> (secret_store w);
     environ := environ w;
     opened_ports := opened_ports w;
     runner_calls := runner_calls w;
     tokens_drawn := S (tokens_drawn w);
     secrets_added := S (secrets_added w) |}.

(** ** Construction of the charm (lines 35 to 77)

    [__init__] registers one handler per event and loads the env file.
    The resource store and the dotenv parser are outside collaborators: a
    call returns a value or raises with a text. *)

Inductive outcome (A : Type) :=
| Returned (a : A)
| Raised (text : string).
Arguments Returned {A} a.
Arguments Raised {A} text.

Record Resources := {
  fetch : string → outcome string;
  dotenv_values : string → outcome (gmap string string)
}.

(** The [try] block of [_load_env_file], run on the local [env_vars]: the
    value of the local when the block is left, and how it is left.  The
    local is assigned before the emptiness test, ValueError is raised
    after. *)
Definition load_env_try (rs : Resources) (env_vars : gmap string string)
    : gmap string string * outcome unit :=
  match fetch rs "env-file" with
  | Raised text => (env_vars, Raised text)
  | Returned env_file_path =>
      match dotenv_values rs env_file_path with
      | Raised text => (env_vars, Raised text)
      | Returned parsed =>
          let env_vars := parsed in
          if negb (truthy_dict env_vars) then
            (env_vars, Raised "The .env file is empty or has invalid formatting.")
          else (env_vars, Returned tt)
      end
  end.

(** [except Exception as e] only logs; the function returns the local. *)
Definition _load_env_file (rs : Resources) : gmap string string :=
  let env_vars : gmap string string := ∅ in
  fst (load_env_try rs env_vars).

(** The message the function logs. *)
Definition load_env_log (rs : Resources) : string :=
  match snd (load_env_try rs ∅) with
  | Returned _ => ".env file loaded successfully."
  | Raised text => "Failed to load resource: " +:+ text
  end.

(** The charm object [__init__] builds on a host: [_env_vars] is what
    [_load_env_file] returned. *)
Definition charm_init (rs : Resources) (h : Host) : Host :=
  {| database_relation := database_relation h;
     relation_data := relation_data h;
     is_leader := is_leader h;
     config := config h;
     env_vars := _load_env_file rs;
     runner := runner h;
     token_hex := token_hex h;
     fresh_secret_id := fresh_secret_id h |}.

(** The events [__init__] observes, each with its handler. *)
Inductive Event :=
| InstallEvent
| StartEvent
| UpgradeCharmEvent
| DatabaseCreatedEvent.

Definition dispatch (host : Host) (ev : Event) : M unit :=
  match ev with
  | DatabaseCreatedEvent => _on_database_created host
  | InstallEvent => _on_install host
  | StartEvent => _on_start host
  | UpgradeCharmEvent => _on_upgrade_charm
  end.

(** [n] calls of [_jwt_secret] in a row: the state they leave. *)
Fixpoint jwt_secret_calls (host : Host) (n : nat) (w : World) : World :=
  match n with
  | 0 => w
  | S n' => jwt_secret_calls host n' (snd (_jwt_secret host w))
  end.

(** [n] deliveries of one event in a row, stopping at the first that
    raises. *)
Fixpoint deliveries (host : Host) (ev : Event) (n : nat) : M unit :=
  match n with
  | 0 => mret tt
  | S n' => dispatch host ev;; deliveries host ev n'
  end.

Definition missing_resource : Resources :=
  {| fetch := λ _, Raised "resource not found";
     dotenv_values := λ _, Returned ∅ |}.

Definition empty_env_file : Resources :=
  {| fetch := λ _, Returned "/var/lib/juju/env-file";
     dotenv_values := λ _, Returned ∅ |}.

Definition unreadable_env_file : Resources :=
  {| fetch := λ _, Returned "/var/lib/juju/env-file";
     dotenv_values := λ _, Raised "permission denied" |}.

Definition good_env_file : Resources :=
  {| fetch := λ _, Returned "/var/lib/juju/env-file";
     dotenv_values := λ _, Returned {[ "KEY" := "value" ]} |}.

Definition stale_host : Host := host_with (Some 9) true ∅ quiet_runner.

(** The peer databag publishes a non-empty secret id that the secret store
    does not know. *)
Definition stale_secret_id (w : World) : Prop :=
  ∃ databag sid,
    peers_data w = Some databag ∧ databag !! "jwt-secret-id" = Some sid ∧
    sid ≠ "" ∧ secret_store w !! sid = None.

Definition host_of_databag (d : gmap string string) : Host :=
  {| database_relation := Some 7;
     relation_data := {[ 7 := d ]};
     is_leader := false;
     config := sample_config;
     env_vars := ∅;
     runner := quiet_runner;
     token_hex := sample_tokens;
     fresh_secret_id := sample_ids |}.

Definition databag_a_bc : gmap string string :=
  {[ "username" := "a"; "password" := "b:c"; "endpoints" := "h" ]}.

Definition databag_ab_c : gmap string string :=
  {[ "username" := "a:b"; "password" := "c"; "endpoints" := "h" ]}.

(** The status [_update_service_config] sets when the lookup of
    [self._ratings] fails in its [try] statement. *)
Definition blocked_no_ratings : Status :=
  BlockedStatus
    "Failed to start Ratings service: 'RatingsCharm' object has no attribute '_ratings'".

(** [sub in s] *)
Definition contains (sub s : string) : Prop :=
  ∃ pre post, s = pre +:+ sub +:+ post.

(** The proxy claim in the words of the specification: both targets take
    the value of the source variable whenever that variable is present. *)
Definition sets_proxy_whenever_present (w : World) : Prop :=
  ∀ url, environ w !! "JUJU_CHARM_HTTP_PROXY" = Some url →
    environ (snd (_set_proxy w)) !! "HTTP_PROXY" = Some url ∧
    environ (snd (_set_proxy w)) !! "HTTPS_PROXY" = Some url.

Example db_string_sample :
  _db_connection_string follower_host blank_world
  = (Ok "postgres://u:p@host:5432/ratings", blank_world).
Proof. vm_compute. reflexivity. Qed.

(** ** Basic facts on the monad and on truthiness *)

Ltac unfold_monad :=
  unfold set_status in *;
  unfold mbind, M_bind, bind, mret, M_ret, ret, raise, try_except, gets,
    modify in *.

Lemma append_empty_r (s : string) : s +:+ "" = s.
Proof.
  induction s as [|a s IH]; [reflexivity|].
  change (String a (s +:+ "") = String a s). by rewrite IH.
Qed.

Lemma truthy_Some_nonempty (s : string) : s ≠ "" → truthy (Some s) = true.
Proof.
  intros Hs. simpl. apply negb_true_iff. by apply String.eqb_neq.
Qed.

Lemma truthy_false (x : option string) :
  truthy x = false ↔ x = None ∨ x = Some "".
Proof.
  destruct x as [s|]; simpl.
  - rewrite negb_false_iff, String.eqb_eq. split.
    + intros ->. by right.
    + intros [?|[= ->]]; done.
  - split; [by left | done].
Qed.

Lemma truthy_true (x : option string) :
  truthy x = true ↔ ∃ s, x = Some s ∧ s ≠ "".
Proof.
  destruct x as [s|]; simpl.
  - rewrite negb_true_iff, String.eqb_neq. split.
    + intros Hs. by exists s.
    + by intros (s' & [= <-] & Hs).
  - split; [done | by intros (s & ? & _)].
Qed.

(** ** Connection-string builder *)

(** C4. The builder returns postgres://<username>:<password>@<endpoints>/ratings
    when the three fields of the databag are present and non-empty, and the
    empty string when the relation is missing or when one of the three is
    missing or empty.  It never changes the state. *)
Theorem db_connection_string_cases (host : Host) (w : World) :
  (database_relation host = None →
   _db_connection_string host w = (Ok "", w)) ∧
  (∀ rid data,
     database_relation host = Some rid →
     relation_data host !! rid = Some data →
     (∀ u p e,
        data !! "username" = Some u → data !! "password" = Some p →
        data !! "endpoints" = Some e →
        u ≠ "" → p ≠ "" → e ≠ "" →
        _db_connection_string host w =
          (Ok ("postgres://" +:+ u +:+ ":" +:+ p +:+ "@" +:+ e +:+ "/ratings"), w)) ∧
     ((data !! "username" = None ∨ data !! "username" = Some "") ∨
      (data !! "password" = None ∨ data !! "password" = Some "") ∨
      (data !! "endpoints" = None ∨ data !! "endpoints" = Some "") →
      _db_connection_string host w = (Ok "", w))).
Proof.
  split.
  - intros Hrel. unfold _db_connection_string. by rewrite Hrel.
  - intros rid data Hrel Hdata. unfold _db_connection_string.
    rewrite Hrel, Hdata. split.
    + intros u p e -> -> -> Hu Hp He.
      by rewrite !truthy_Some_nonempty.
    + intros Hmiss.
      assert (truthy (data !! "username") && truthy (data !! "password")
              && truthy (data !! "endpoints") = false) as ->; [|done].
      rewrite !andb_false_iff, !truthy_false. tauto.
Qed.

Lemma db_connection_string_cases_witness :
  _db_connection_string follower_host blank_world
  = (Ok "postgres://u:p@host:5432/ratings", blank_world).
Proof.
  destruct (db_connection_string_cases follower_host blank_world)
    as [_ Hsome].
  destruct (Hsome 7 databag_u_p) as [Hfull _]; [reflexivity | reflexivity |].
  apply (Hfull "u" "p" "host:5432"); [reflexivity | reflexivity | reflexivity | | | ];
    discriminate.
Defined.

(** ** JWT secret resolution *)

Lemma jwt_secret_no_relation (host : Host) (w : World) :
  peers_data w = None → _jwt_secret host w = (Ok (Some ""), w).
Proof.
  intros Hp. unfold _jwt_secret. unfold_monad. by rewrite Hp.
Qed.

Lemma jwt_secret_follower_no_id (host : Host) (w : World) databag :
  peers_data w = Some databag →
  truthy (databag !! "jwt-secret-id") = false →
  is_leader host = false →
  _jwt_secret host w = (Ok (Some ""), w).
Proof.
  intros Hp Hid Hl. unfold _jwt_secret. unfold_monad.
  by rewrite Hp, Hid, Hl.
Qed.

(** With an id in the databag the secret is looked up and nothing is
    written, whoever asks. *)
Lemma jwt_secret_existing_id (host : Host) (w : World) databag sid :
  peers_data w = Some databag →
  databag !! "jwt-secret-id" = Some sid →
  sid ≠ "" →
  _jwt_secret host w =
    (match secret_store w !! sid with
     | Some content => Ok (content !! "jwt-secret")
     | None => Raise SecretNotFoundError
     end, w).
Proof.
  intros Hp Hid Hne. unfold _jwt_secret, get_secret. unfold_monad.
  rewrite Hp, Hid, truthy_Some_nonempty by done. simpl.
  by destruct (secret_store w !! sid).
Qed.

Lemma jwt_secret_leader_creates (host : Host) (w : World) databag :
  peers_data w = Some databag →
  truthy (databag !! "jwt-secret-id") = false →
  is_leader host = true →
  _jwt_secret host w =
    (Ok (Some (token_hex host (tokens_drawn w))), after_creation host databag w).
Proof.
  intros Hp Hid Hl.
  unfold _jwt_secret, draw_token_hex, add_secret, peers_setitem, getitem.
  unfold_monad. rewrite Hp, Hid, Hl. simpl.
  rewrite lookup_singleton_eq. simpl.
  unfold after_creation. by rewrite Hp.
Qed.

(** C6. With no jwt-secret-id in the peer databag (the relation missing
    included) and the unit not the leader, the resolution returns the empty
    string and leaves the whole state as it was: no token is drawn, no
    secret stored, no id published. *)
Theorem jwt_secret_follower_empty (host : Host) (w : World) :
  is_leader host = false →
  (∀ databag, peers_data w = Some databag → databag !! "jwt-secret-id" = None) →
  _jwt_secret host w = (Ok (Some ""), w).
Proof.
  intros Hl Hno. destruct (peers_data w) as [databag|] eqn:Hp.
  - apply (jwt_secret_follower_no_id host w databag); [done | | done].
    by rewrite (Hno databag).
  - by apply jwt_secret_no_relation.
Qed.

Lemma jwt_secret_follower_empty_witness :
  _jwt_secret follower_host world_other_key = (Ok (Some ""), world_other_key).
Proof.
  apply (jwt_secret_follower_empty follower_host world_other_key);
    [reflexivity |].
  intros databag [= <-]. reflexivity.
Defined.

(** C10. Without the peer relation the resolution returns the empty string
    and leaves the whole state as it was, on the leader as on any other
    unit. *)
Theorem jwt_secret_without_peers (host : Host) (w : World) :
  peers_data w = None →
  _jwt_secret host w = (Ok (Some ""), w) ∧
  secret_store (snd (_jwt_secret host w)) = secret_store w ∧
  tokens_drawn (snd (_jwt_secret host w)) = tokens_drawn w.
Proof.
  intros Hp. by rewrite (jwt_secret_no_relation host w Hp).
Qed.

Lemma jwt_secret_without_peers_witness :
  _jwt_secret leader_without_database blank_world = (Ok (Some ""), blank_world).
Proof.
  apply (jwt_secret_without_peers leader_without_database blank_world).
  reflexivity.
Defined.

(** With an id already published, a second call repeats the first. *)
Lemma jwt_secret_twice_existing (host : Host) (w : World) databag sid :
  peers_data w = Some databag →
  databag !! "jwt-secret-id" = Some sid →
  sid ≠ "" →
  _jwt_secret host (snd (_jwt_secret host w)) = _jwt_secret host w.
Proof.
  intros Hp Hid Hne.
  rewrite (jwt_secret_existing_id host w databag sid Hp Hid Hne). simpl.
  by apply jwt_secret_existing_id with databag.
Qed.

(** C5. On the leader, with the peer relation present and no id published
    yet (none, or an empty one), the first call draws a token, stores it as a secret, publishes the
    id of the secret in the peer databag and returns the token; the second
    call finds the id, returns the same token and changes nothing.  The
    host gives a non-empty id to the secret. *)
Theorem jwt_secret_twice_same (host : Host) (w : World) databag :
  is_leader host = true →
  peers_data w = Some databag →
  truthy (databag !! "jwt-secret-id") = false →
  fresh_secret_id host (secrets_added w) ≠ "" →
  let tok := token_hex host (tokens_drawn w) in
  let sid := fresh_secret_id host (secrets_added w) in
  let w1 := snd (_jwt_secret host w) in
  _jwt_secret host w = (Ok (Some tok), w1) ∧
  secret_store w1 !! sid = Some {[ "jwt-secret" := tok ]} ∧
  peers_data w1 = Some (<["jwt-secret-id" := sid]> databag) ∧
  _jwt_secret host w1 = (Ok (Some tok), w1).
Proof.
  intros Hl Hp Hfalsy Hne tok sid w1.
  pose proof (jwt_secret_leader_creates host w databag Hp Hfalsy Hl) as Hfirst.
  subst w1. rewrite Hfirst. simpl. split; [done|].
  split; [by rewrite lookup_insert_eq|]. split; [done|].
  rewrite (jwt_secret_existing_id host (after_creation host databag w)
             (<["jwt-secret-id" := sid]> databag) sid);
    [| done | by rewrite lookup_insert_eq | done].
  simpl. fold sid. rewrite lookup_insert_eq.
  by rewrite lookup_singleton_eq.
Qed.

Lemma jwt_secret_twice_same_witness :
  _jwt_secret ready_host world_with_peers
  = (Ok (Some "a1b2c3-0"), snd (_jwt_secret ready_host world_with_peers)) ∧
  _jwt_secret ready_host (snd (_jwt_secret ready_host world_with_peers))
  = (Ok (Some "a1b2c3-0"), snd (_jwt_secret ready_host world_with_peers)).
Proof.
  destruct (jwt_secret_twice_same ready_host world_with_peers ∅)
    as (H1 & _ & _ & H2);
    [reflexivity | reflexivity | reflexivity | discriminate |].
  split; [exact H1 | exact H2].
Defined.

(** ** Proxy configuration *)

Lemma set_proxy_sets (w : World) url :
  environ w !! "JUJU_CHARM_HTTP_PROXY" = Some url → url ≠ "" →
  _set_proxy w =
    (Ok tt, with_environ (<["HTTPS_PROXY" := url]> (<["HTTP_PROXY" := url]> (environ w))) w).
Proof.
  intros Hsrc Hne. unfold _set_proxy, environ_setitem. unfold_monad.
  rewrite Hsrc, truthy_Some_nonempty by done. by destruct w.
Qed.

Lemma set_proxy_skips (w : World) :
  truthy (environ w !! "JUJU_CHARM_HTTP_PROXY") = false →
  _set_proxy w = (Ok tt, w).
Proof.
  intros Hsrc. unfold _set_proxy. unfold_monad. by rewrite Hsrc.
Qed.

Lemma set_proxy_twice (w : World) :
  _set_proxy (snd (_set_proxy w)) = _set_proxy w.
Proof.
  destruct (truthy (environ w !! "JUJU_CHARM_HTTP_PROXY")) eqn:Hsrc.
  - apply truthy_true in Hsrc as (url & Hsrc & Hne).
    rewrite (set_proxy_sets w url Hsrc Hne). simpl.
    rewrite (set_proxy_sets _ url); [| by simpl; rewrite !lookup_insert_ne | done].
    f_equal. destruct w; simpl. unfold with_environ; simpl. f_equal.
    apply map_eq. intros k. rewrite !lookup_insert.
    repeat case_decide; congruence.
  - rewrite (set_proxy_skips w Hsrc). simpl. by apply set_proxy_skips.
Qed.

(** C9, as the code has it. The routine never raises.  When the source
    variable is present and non-empty, both HTTP_PROXY and HTTPS_PROXY hold
    its value afterwards and nothing else changes; when it is absent or
    empty, the state is left as it was; applying the routine a second time
    changes nothing more. *)
Theorem set_proxy_effect (w : World) :
  fst (_set_proxy w) = Ok tt ∧
  (∀ url, environ w !! "JUJU_CHARM_HTTP_PROXY" = Some url → url ≠ "" →
     let w' := snd (_set_proxy w) in
     environ w' !! "HTTP_PROXY" = Some url ∧
     environ w' !! "HTTPS_PROXY" = Some url ∧
     (∀ k, k ≠ "HTTP_PROXY" → k ≠ "HTTPS_PROXY" → environ w' !! k = environ w !! k) ∧
     with_environ (environ w) w' = w) ∧
  (environ w !! "JUJU_CHARM_HTTP_PROXY" = None ∨
   environ w !! "JUJU_CHARM_HTTP_PROXY" = Some "" →
   snd (_set_proxy w) = w) ∧
  snd (_set_proxy (snd (_set_proxy w))) = snd (_set_proxy w).
Proof.
  split; [|split; [|split]].
  - destruct (truthy (environ w !! "JUJU_CHARM_HTTP_PROXY")) eqn:Hsrc.
    + apply truthy_true in Hsrc as (url & Hsrc & Hne).
      by rewrite (set_proxy_sets w url Hsrc Hne).
    + by rewrite (set_proxy_skips w Hsrc).
  - intros url Hsrc Hne. rewrite (set_proxy_sets w url Hsrc Hne). simpl.
    split; [by rewrite lookup_insert_ne, lookup_insert_eq|].
    split; [by rewrite lookup_insert_eq|].
    split; [intros k Hk1 Hk2; by rewrite !lookup_insert_ne | by destruct w].
  - intros Hsrc. apply truthy_false in Hsrc. by rewrite (set_proxy_skips w Hsrc).
  - by rewrite set_proxy_twice.
Qed.

Lemma set_proxy_effect_witness :
  environ (snd (_set_proxy world_with_proxy)) !! "HTTP_PROXY"
  = Some "http://squid:3128" ∧
  environ (snd (_set_proxy world_with_proxy)) !! "HTTPS_PROXY"
  = Some "http://squid:3128".
Proof.
  destruct (set_proxy_effect world_with_proxy) as (_ & Hset & _).
  destruct (Hset "http://squid:3128") as (H1 & H2 & _);
    [reflexivity | discriminate |].
  split; [exact H1 | exact H2].
Defined.

(** C9, as the specification words it, fails when the source variable is
    present with an empty value: the guard [if proxy_url:] is false for the
    empty string, and neither target is set. *)
Lemma set_proxy_empty_source_counterexample :
  environ world_empty_proxy !! "JUJU_CHARM_HTTP_PROXY" = Some "" ∧
  environ (snd (_set_proxy world_empty_proxy)) !! "HTTP_PROXY" = None ∧
  environ (snd (_set_proxy world_empty_proxy)) !! "HTTPS_PROXY" = None ∧
  ¬ sets_proxy_whenever_present world_empty_proxy.
Proof.
  split; [reflexivity|]. split; [reflexivity|]. split; [reflexivity|].
  intros Hclaim. destruct (Hclaim "") as [Hhttp _]; [reflexivity|].
  vm_compute in Hhttp. discriminate.
Qed.

(** ** Frame lemmas: what the helpers leave alone *)

Lemma db_connection_string_pure (host : Host) (w : World) :
  snd (_db_connection_string host w) = w.
Proof.
  unfold _db_connection_string. unfold_monad. by repeat case_match.
Qed.

Lemma jwt_secret_frame (host : Host) (w : World) :
  let w' := snd (_jwt_secret host w) in
  runner_calls w' = runner_calls w ∧ opened_ports w' = opened_ports w ∧
  unit_status w' = unit_status w ∧ environ w' = environ w.
Proof.
  unfold _jwt_secret, get_secret, draw_token_hex, add_secret, peers_setitem,
    getitem.
  unfold_monad. simpl. repeat case_match; simplify_eq/=; done.
Qed.

Lemma set_proxy_frame (w : World) :
  let w' := snd (_set_proxy w) in
  runner_calls w' = runner_calls w ∧ opened_ports w' = opened_ports w ∧
  unit_status w' = unit_status w.
Proof.
  unfold _set_proxy, environ_setitem. unfold_monad. simpl.
  by repeat case_match.
Qed.

(** ** The database-created handler *)

(** C7. Without the database relation the handler sets the status to
    waiting and returns; the rest of the state is as before: no call of the
    runner, no secret created or published, no port opened, no variable of
    the environment set. *)
Theorem database_created_without_relation (host : Host) (w : World) :
  database_relation host = None →
  let w' := snd (_on_database_created host w) in
  _on_database_created host w
    = (Ok tt, with_unit_status (WaitingStatus "Waiting for database relation") w) ∧
  unit_status w' = WaitingStatus "Waiting for database relation" ∧
  runner_calls w' = runner_calls w ∧
  secret_store w' = secret_store w ∧
  peers_data w' = peers_data w ∧
  tokens_drawn w' = tokens_drawn w ∧
  opened_ports w' = opened_ports w ∧
  environ w' = environ w.
Proof.
  intros Hrel. unfold _on_database_created, _update_service_config.
  rewrite Hrel. by unfold_monad.
Qed.

Lemma database_created_without_relation_witness :
  _on_database_created leader_without_database world_with_proxy
  = (Ok tt,
     with_unit_status (WaitingStatus "Waiting for database relation")
       world_with_proxy).
Proof.
  destruct (database_created_without_relation leader_without_database
              world_with_proxy) as [Heq _];
    [reflexivity | exact Heq].
Defined.

(** The handler looks the runner up under [_ratings], a name [__init__]
    never binds: the lookup raises inside the [try] statement before any
    argument is evaluated, so no delivery of the event reaches the runner
    or opens a port. *)
Lemma database_created_never_configures (host : Host) (w : World) :
  let w' := snd (_on_database_created host w) in
  runner_calls w' = runner_calls w ∧ opened_ports w' = opened_ports w.
Proof.
  unfold _on_database_created, _update_service_config.
  destruct (database_relation host) as [rid|] eqn:Hrel; [|by unfold_monad].
  unfold_monad. simpl.
  set (w0 := with_unit_status _ w).
  pose proof (db_connection_string_pure host w0) as Hdb.
  destruct (_db_connection_string host w0) as [[cs|e] w1]; simpl in *; [|by subst].
  subst w1.
  pose proof (jwt_secret_frame host w0) as (Hj1 & Hj2 & _).
  destruct (_jwt_secret host w0) as [[jwt|e] w2]; simpl in *; [|done].
  pose proof (set_proxy_frame w2) as (Hp1 & Hp2 & _).
  destruct (_set_proxy w2) as [[[]|e] w3]; simpl in *; [|by rewrite Hp1, Hp2].
  by rewrite Hp1, Hp2.
Qed.

Lemma database_created_blocked (host : Host) (w w' : World) :
  is_Some (database_relation host) →
  _on_database_created host w = (Ok tt, w') →
  unit_status w' =
    BlockedStatus "Failed to start Ratings service: 'RatingsCharm' object has no attribute '_ratings'".
Proof.
  intros [rid Hrel]. unfold _on_database_created, _update_service_config.
  rewrite Hrel. unfold_monad. simpl.
  destruct (_db_connection_string host _) as [[cs|e] w1]; [|done].
  destruct (_jwt_secret host w1) as [[jwt|e] w2]; [|done].
  destruct (_set_proxy w2) as [[[]|e] w3]; [|done].
  by intros [= <-].
Qed.

(** C1, evaluated where the claim promises a configure call: the database
    relation exists with a full databag, the unit is the leader, the
    configuration has both options and the runner accepts every call.  The
    handler asks the runner for nothing; it ends blocked on the
    AttributeError raised by [self._ratings], with the secret created and
    the proxy variables set by the steps before the [try] statement. *)
Theorem database_created_ready_host_blocked :
  fst (_on_database_created ready_host world_with_proxy) = Ok tt ∧
  _db_connection_string ready_host world_with_proxy
  = (Ok "postgres://u:p@host:5432/ratings", world_with_proxy) ∧
  runner_calls (snd (_on_database_created ready_host world_with_proxy)) = [] ∧
  opened_ports (snd (_on_database_created ready_host world_with_proxy)) = [] ∧
  unit_status (snd (_on_database_created ready_host world_with_proxy)) =
    BlockedStatus "Failed to start Ratings service: 'RatingsCharm' object has no attribute '_ratings'".
Proof. vm_compute. repeat split. Qed.

(** ** The install handler *)

(** C8, as the code has it. When the installer raises, the handler ends
    blocked and the message is the text of the error; when the installer
    returns, it ends in maintenance with the message "Installation
    complete, waiting for database.".  The installer is called once in both
    cases and the handler itself returns. *)
Theorem on_install_status (host : Host) (w : World) :
  let w' := snd (_on_install host w) in
  fst (_on_install host w) = Ok tt ∧
  runner_calls w' = (runner_calls w ++ [CallInstall])%list ∧
  (∀ text, install_raises (runner host) = Some text →
     unit_status w' = BlockedStatus text ∧
     contains text (status_message (unit_status w'))) ∧
  (install_raises (runner host) = None →
     unit_status w' = MaintenanceStatus "Installation complete, waiting for database.").
Proof.
  unfold _on_install, runner_install, call_runner. unfold_monad. simpl.
  destruct (install_raises (runner host)) as [text|]; simpl.
  - split; [done|]. split; [done|]. split; [|done].
    intros text' [= <-]. split; [done|].
    exists "", "". change (text = text +:+ ""). by rewrite append_empty_r.
  - split; [done|]. split; [done|]. by split.
Qed.

Lemma on_install_status_witness :
  unit_status (snd (_on_install host_install_fails blank_world))
  = BlockedStatus "snap install failed" ∧
  unit_status (snd (_on_install follower_host blank_world))
  = MaintenanceStatus "Installation complete, waiting for database.".
Proof.
  destruct (on_install_status host_install_fails blank_world)
    as (_ & _ & Hfail & _).
  destruct (on_install_status follower_host blank_world)
    as (_ & _ & _ & Hsucceeds).
  destruct (Hfail "snap install failed") as [Hst _]; [reflexivity|].
  split; [exact Hst | apply Hsucceeds; reflexivity].
Defined.

(** C8, as the specification words it, fails on the success path: with an
    installer that returns, the handler ends in maintenance, but the
    message is "Installation complete, waiting for database." and not
    "waiting for database.". *)
Lemma on_install_success_message_counterexample :
  install_raises (runner follower_host) = None ∧
  fst (_on_install follower_host blank_world) = Ok tt ∧
  status_message (unit_status (snd (_on_install follower_host blank_world)))
  = "Installation complete, waiting for database." ∧
  unit_status (snd (_on_install follower_host blank_world))
  ≠ MaintenanceStatus "waiting for database.".
Proof.
  split; [reflexivity|]. split; [reflexivity|]. split; [reflexivity|].
  vm_compute. discriminate.
Qed.

(** ** The start handler *)

Lemma on_start_try_returns (host : Host) (w : World) :
  fst (_on_start_try host w) = Ok tt.
Proof.
  unfold _on_start_try, runner_configure, call_runner. unfold_monad. simpl.
  destruct (truthy_dict (env_vars host)); [|done].
  by destruct (configure_raises (runner host) (Positional (env_vars host))).
Qed.

(** The [try] statement of the start handler does downgrade a failure of
    configure to a blocked status. *)
Lemma on_start_try_blocked (host : Host) (w : World) text :
  env_vars host ≠ ∅ →
  configure_raises (runner host) (Positional (env_vars host)) = Some text →
  unit_status (snd (_on_start_try host w))
  = BlockedStatus ("Failed to start Ratings service: " +:+ text).
Proof.
  intros Hne Hraise.
  unfold _on_start_try, runner_configure, call_runner, truthy_dict.
  unfold_monad. simpl. rewrite bool_decide_eq_false_2 by done. simpl.
  by rewrite Hraise.
Qed.

Lemma on_start_unfold (host : Host) (w : World) :
  _on_start host w =
    match run_raises (runner host) with
    | Some text =>
        (Raise (ExternalError text), with_runner_calls (runner_calls w ++ [CallRun]) w)
    | None =>
        (Ok tt,
         with_unit_status (ActiveStatus "")
           (snd (_on_start_try host
                   (with_runner_calls (runner_calls w ++ [CallRun])%list w))))
    end.
Proof.
  unfold _on_start, runner_run, call_runner. unfold_monad. simpl.
  destruct (run_raises (runner host)) as [text|]; [done|].
  set (w1 := with_runner_calls _ w).
  pose proof (on_start_try_returns host w1) as Htry.
  unfold try_except in Htry.
  by destruct (_on_start_try host w1) as [[[]|e] w2].
Qed.

(** C3. Whenever the start handler returns, the unit status is active; it
    returns whenever the runner's start operation does, and this includes
    the executions in which configure raised and the [try] statement had
    just set a blocked status. *)
Theorem on_start_ends_active (host : Host) (w : World) :
  (fst (_on_start host w) = Ok tt →
   unit_status (snd (_on_start host w)) = ActiveStatus "") ∧
  (run_raises (runner host) = None → fst (_on_start host w) = Ok tt) ∧
  (∀ text,
     run_raises (runner host) = None →
     env_vars host ≠ ∅ →
     configure_raises (runner host) (Positional (env_vars host)) = Some text →
     unit_status
       (snd (_on_start_try host (with_runner_calls (runner_calls w ++ [CallRun])%list w)))
     = BlockedStatus ("Failed to start Ratings service: " +:+ text) ∧
     unit_status (snd (_on_start host w)) = ActiveStatus "").
Proof.
  rewrite on_start_unfold.
  destruct (run_raises (runner host)) as [text0|] eqn:Hrun; simpl.
  - split; [done|]. split; [done|]. by intros text [=].
  - split; [done|]. split; [done|].
    intros text _ Hne Hraise. split; [|done].
    by apply on_start_try_blocked.
Qed.

Lemma on_start_ends_active_witness :
  unit_status
    (snd (_on_start_try host_configure_fails
            (with_runner_calls (runner_calls blank_world ++ [CallRun])%list
               blank_world)))
  = BlockedStatus "Failed to start Ratings service: configure failed" ∧
  unit_status (snd (_on_start host_configure_fails blank_world)) = ActiveStatus "".
Proof.
  destruct (on_start_ends_active host_configure_fails blank_world)
    as (_ & _ & Hover).
  apply (Hover "configure failed"); [reflexivity | | reflexivity].
  intros Hempty. apply (f_equal (λ m : gmap string string, m !! "KEY")) in Hempty.
  vm_compute in Hempty. discriminate.
Defined.

(** C2, evaluated on a start event whose runner fails to start the
    service: the call of [run] stands before the [try] statement, so the
    error leaves the handler and the status is not touched. *)
Theorem on_start_run_failure_escapes :
  fst (_on_start host_run_fails blank_world) = Raise (ExternalError "runner failed") ∧
  unit_status (snd (_on_start host_run_fails blank_world)) = unit_status blank_world.
Proof. vm_compute. split; reflexivity. Qed.

(** The database-created handler resolves the secret before its [try]
    statement: an id in the peer databag that the secret store does not
    know raises out of the handler as well. *)
Lemma database_created_secret_lookup_escapes :
  fst (_on_database_created ready_host world_stale_id) = Raise SecretNotFoundError.
Proof. vm_compute. reflexivity. Qed.

(** ** The env file *)

Lemma truthy_dict_nonempty (d : gmap string string) :
  truthy_dict d = true ↔ d ≠ ∅.
Proof.
  unfold truthy_dict. rewrite negb_true_iff, bool_decide_eq_false. done.
Qed.

Lemma load_env_file_logged (rs : Resources) :
  _load_env_file rs ≠ ∅ ↔ load_env_log rs = ".env file loaded successfully.".
Proof.
  unfold _load_env_file, load_env_log, load_env_try.
  destruct (fetch rs "env-file") as [path|text]; simpl; [|done].
  destruct (dotenv_values rs path) as [parsed|text]; simpl; [|done].
  destruct (truthy_dict parsed) eqn:Hd; simpl.
  - apply truthy_dict_nonempty in Hd. done.
  - apply not_true_iff_false in Hd. rewrite truthy_dict_nonempty in Hd.
    split; [done | discriminate].
Qed.

(** X1. [_load_env_file] returns what the parser read when the resource is
    fetched and parsed, and the empty mapping when the fetch or the parser
    raises; a non-empty result is always a parsed file, and it is the only
    case logged as a success. *)
Theorem load_env_file_cases (rs : Resources) :
  (∀ path parsed,
     fetch rs "env-file" = Returned path →
     dotenv_values rs path = Returned parsed →
     _load_env_file rs = parsed) ∧
  (∀ text, fetch rs "env-file" = Raised text →
     _load_env_file rs = ∅ ∧
     load_env_log rs = "Failed to load resource: " +:+ text) ∧
  (∀ path text,
     fetch rs "env-file" = Returned path →
     dotenv_values rs path = Raised text →
     _load_env_file rs = ∅ ∧
     load_env_log rs = "Failed to load resource: " +:+ text) ∧
  (_load_env_file rs ≠ ∅ ↔ load_env_log rs = ".env file loaded successfully.").
Proof.
  split; [|split; [|split]]; [| | | apply load_env_file_logged];
    unfold _load_env_file, load_env_log, load_env_try.
  - intros path parsed -> ->. simpl. by destruct (truthy_dict parsed).
  - by intros text ->.
  - by intros path text -> ->.
Qed.

Lemma load_env_file_cases_witness :
  _load_env_file good_env_file = {[ "KEY" := "value" ]} ∧
  _load_env_file missing_resource = ∅ ∧
  _load_env_file unreadable_env_file = ∅.
Proof.
  destruct (load_env_file_cases good_env_file) as (Hgood & _).
  destruct (load_env_file_cases missing_resource) as (_ & Hmiss & _).
  destruct (load_env_file_cases unreadable_env_file) as (_ & _ & Hbad & _).
  split; [by apply (Hgood "/var/lib/juju/env-file")|].
  split; [by apply (Hmiss "resource not found")|].
  by apply (Hbad "/var/lib/juju/env-file" "permission denied").
Defined.

(** ** The start handler: what it asks of the runner *)

Lemma on_start_try_effect (host : Host) (w : World) :
  let w' := snd (_on_start_try host w) in
  runner_calls w' =
    (runner_calls w ++
       if truthy_dict (env_vars host)
       then [CallConfigure (Positional (env_vars host))] else [])%list ∧
  with_unit_status (unit_status w) (with_runner_calls (runner_calls w) w') = w.
Proof.
  unfold _on_start_try, runner_configure, call_runner. unfold_monad. simpl.
  destruct (truthy_dict (env_vars host)); simpl.
  - destruct (configure_raises (runner host) (Positional (env_vars host)));
      simpl; by destruct w.
  - rewrite app_nil_r. by destruct w.
Qed.

(** X2. When the runner's start operation returns, the start handler has
    called [run] and then, only if the env file gave at least one variable,
    [configure] with exactly those variables; besides the calls and the
    status it changes nothing (no port is opened, no secret or variable of
    the environment touched). *)
Theorem on_start_runner_calls (host : Host) (w : World) :
  run_raises (runner host) = None →
  let w' := snd (_on_start host w) in
  (env_vars host = ∅ →
   runner_calls w' = (runner_calls w ++ [CallRun])%list) ∧
  (env_vars host ≠ ∅ →
   runner_calls w' =
     (runner_calls w ++ [CallRun; CallConfigure (Positional (env_vars host))])%list) ∧
  with_unit_status (unit_status w) (with_runner_calls (runner_calls w) w') = w.
Proof.
  intros Hrun. rewrite on_start_unfold, Hrun. simpl.
  set (w1 := with_runner_calls _ w).
  destruct (on_start_try_effect host w1) as [Hcalls Hframe]. simpl in *.
  split; [|split].
  - intros Hempty. rewrite Hcalls.
    assert (truthy_dict (env_vars host) = false) as ->.
    { apply not_true_iff_false. rewrite truthy_dict_nonempty. by intros []. }
    by rewrite app_nil_r.
  - intros Hne. rewrite Hcalls.
    apply truthy_dict_nonempty in Hne as ->. simpl. by rewrite <-app_assoc.
  - destruct (_on_start_try host w1) as [r w2]. simpl in *.
    destruct w, w2; simpl in *. unfold with_unit_status, with_runner_calls in *.
    simpl in *. unfold w1 in Hframe. injection Hframe. intros. by subst.
Qed.

Lemma on_start_runner_calls_witness :
  runner_calls (snd (_on_start host_configure_fails blank_world))
  = [CallRun; CallConfigure (Positional {[ "KEY" := "value" ]})].
Proof.
  destruct (on_start_runner_calls host_configure_fails blank_world)
    as (_ & Hsome & _); [reflexivity |].
  apply Hsome. intros Hempty.
  apply (f_equal (λ m : gmap string string, m !! "KEY")) in Hempty.
  vm_compute in Hempty. discriminate.
Defined.

(** X3. A charm built on a missing, unreadable or empty env file starts the
    service without configuring it: the start handler calls [run] and
    nothing else, and ends active. *)
Theorem start_without_env_file (rs : Resources) (h : Host) (w : World) :
  load_env_log rs ≠ ".env file loaded successfully." →
  run_raises (runner h) = None →
  _on_start (charm_init rs h) w =
    (Ok tt,
     with_unit_status (ActiveStatus "")
       (with_runner_calls (runner_calls w ++ [CallRun])%list w)).
Proof.
  intros Hlog Hrun.
  assert (_load_env_file rs = ∅) as Hempty.
  { destruct (decide (_load_env_file rs = ∅)) as [|Hne]; [done|].
    by apply load_env_file_logged in Hne. }
  rewrite on_start_unfold. simpl. rewrite Hrun. f_equal.
  unfold _on_start_try, truthy_dict. simpl. rewrite Hempty.
  unfold_monad. simpl. by destruct w.
Qed.

Lemma start_without_env_file_witness :
  _on_start (charm_init empty_env_file follower_host) blank_world =
    (Ok tt,
     with_unit_status (ActiveStatus "")
       (with_runner_calls (runner_calls blank_world ++ [CallRun])%list blank_world)).
Proof.
  apply (start_without_env_file empty_env_file follower_host blank_world);
    [discriminate | reflexivity].
Defined.

(** ** The connection string as a signal *)

Lemma append_assoc (a b c : string) : (a +:+ b) +:+ c = a +:+ b +:+ c.
Proof.
  induction a as [|x a IH]; [reflexivity|].
  change (String x ((a +:+ b) +:+ c) = String x (a +:+ b +:+ c)).
  by rewrite IH.
Qed.

Lemma postgres_uri_nonempty (rest : string) : "postgres://" +:+ rest ≠ "".
Proof.
  intros Huri. cbv in Huri. discriminate.
Qed.

Lemma append_nonempty_l (a b : string) : a ≠ "" → a +:+ b ≠ "".
Proof.
  destruct a as [|x a]; [done|]. intros _ Happ. cbv in Happ. discriminate.
Qed.

Lemma append_nonempty_r (a b : string) : b ≠ "" → a +:+ b ≠ "".
Proof.
  destruct a as [|x a]; [done|]. intros _ Happ. cbv in Happ. discriminate.
Qed.

(** X4. With the databag of the relation at hand, the builder returns the
    empty string exactly when username, password or endpoints is missing or
    empty: a caller can take the empty string for "not ready" and any other
    result for a full URI. *)
Theorem db_connection_string_empty_iff (host : Host) (w : World) rid data :
  database_relation host = Some rid →
  relation_data host !! rid = Some data →
  fst (_db_connection_string host w) = Ok "" ↔
  (data !! "username" = None ∨ data !! "username" = Some "") ∨
  (data !! "password" = None ∨ data !! "password" = Some "") ∨
  (data !! "endpoints" = None ∨ data !! "endpoints" = Some "").
Proof.
  intros Hrel Hdata. unfold _db_connection_string. rewrite Hrel, Hdata.
  rewrite <- !truthy_false.
  destruct (truthy (data !! "username")), (truthy (data !! "password")),
    (truthy (data !! "endpoints")); simpl; unfold_monad; simpl;
    try (split; [intros _; tauto | done]).
  split.
  - intros Huri. exfalso.
    apply (postgres_uri_nonempty
             (default "" (data !! "username") +:+ ":"
              +:+ default "" (data !! "password") +:+ "@"
              +:+ default "" (data !! "endpoints") +:+ "/ratings")).
    congruence.
  - intros [|[|]]; discriminate.
Qed.

Lemma db_connection_string_empty_iff_witness :
  fst (_db_connection_string follower_host blank_world) = Ok "" ↔
  (databag_u_p !! "username" = None ∨ databag_u_p !! "username" = Some "") ∨
  (databag_u_p !! "password" = None ∨ databag_u_p !! "password" = Some "") ∨
  (databag_u_p !! "endpoints" = None ∨ databag_u_p !! "endpoints" = Some "").
Proof.
  apply (db_connection_string_empty_iff follower_host blank_world 7 databag_u_p);
    reflexivity.
Defined.

(** X5. The builder raises in one case only, a relation whose id the
    fetched relation data does not hold, and then with the KeyError of the
    subscript; whatever it returns, it leaves the state as it was. *)
Theorem db_connection_string_raises_iff (host : Host) (w : World) (e : exn) :
  (fst (_db_connection_string host w) = Raise e ↔
   ∃ rid, database_relation host = Some rid ∧
          relation_data host !! rid = None ∧
          e = KeyError (pretty rid)) ∧
  snd (_db_connection_string host w) = w.
Proof.
  split; [|apply db_connection_string_pure].
  unfold _db_connection_string. unfold_monad.
  destruct (database_relation host) as [rid|]; simpl.
  - destruct (relation_data host !! rid) as [data|] eqn:Hdata; simpl.
    + split.
      * by destruct (truthy (data !! "username") && truthy (data !! "password")
                     && truthy (data !! "endpoints")).
      * intros (rid' & [= <-] & Hnone & _). congruence.
    + split.
      * intros [= <-]. by exists rid.
      * by intros (rid' & [= <-] & _ & ->).
  - split; [done | by intros (rid & ? & _)].
Qed.

(** X6. The builder copies the three fields as they are, with no escaping
    of the separators: a colon moved from the password to the username
    gives the same connection string. *)
Theorem db_connection_string_not_injective
    (h1 h2 : Host) (w : World) rid (d1 d2 : gmap string string) (u p q e : string) :
  database_relation h1 = Some rid → relation_data h1 !! rid = Some d1 →
  database_relation h2 = Some rid → relation_data h2 !! rid = Some d2 →
  u ≠ "" → q ≠ "" → e ≠ "" →
  d1 !! "username" = Some u → d1 !! "password" = Some (p +:+ ":" +:+ q) →
  d1 !! "endpoints" = Some e →
  d2 !! "username" = Some (u +:+ ":" +:+ p) → d2 !! "password" = Some q →
  d2 !! "endpoints" = Some e →
  _db_connection_string h1 w = _db_connection_string h2 w.
Proof.
  intros Hr1 Hd1 Hr2 Hd2 Hu Hq He Hu1 Hp1 He1 Hu2 Hp2 He2.
  unfold _db_connection_string.
  rewrite Hr1, Hd1, Hr2, Hd2, Hu1, Hp1, He1, Hu2, Hp2, He2.
  rewrite !truthy_Some_nonempty;
    auto using append_nonempty_l, append_nonempty_r.
  simpl. by rewrite !append_assoc.
Qed.

Lemma db_connection_string_not_injective_witness :
  _db_connection_string (host_of_databag databag_a_bc) blank_world
  = _db_connection_string (host_of_databag databag_ab_c) blank_world.
Proof.
  apply (db_connection_string_not_injective
           (host_of_databag databag_a_bc) (host_of_databag databag_ab_c)
           blank_world 7 databag_a_bc databag_ab_c "a" "b" "c" "h");
    first [reflexivity | discriminate].
Defined.

(** ** JWT secret: what a call reads, writes and leaves alone *)

Lemma truthy_Some_inv (x : option string) :
  truthy x = true → ∃ s, x = Some s ∧ s ≠ "".
Proof. apply truthy_true. Qed.

(** X7. Once a non-empty id is published in the peer databag the secret is
    only read: the call changes nothing, draws no token and adds no secret,
    on the leader as on any other unit; it returns the "jwt-secret" field of
    the stored content (None when the content has no such field) and raises
    SecretNotFoundError when the store does not know the id. *)
Theorem jwt_secret_published_read_only (host : Host) (w : World) databag sid :
  peers_data w = Some databag →
  databag !! "jwt-secret-id" = Some sid →
  sid ≠ "" →
  snd (_jwt_secret host w) = w ∧
  (∀ content, secret_store w !! sid = Some content →
     fst (_jwt_secret host w) = Ok (content !! "jwt-secret")) ∧
  (secret_store w !! sid = None →
     fst (_jwt_secret host w) = Raise SecretNotFoundError) ∧
  (∀ other : Host, _jwt_secret other w = _jwt_secret host w).
Proof.
  intros Hp Hid Hne.
  rewrite (jwt_secret_existing_id host w databag sid Hp Hid Hne). simpl.
  split; [done|]. split; [by intros content ->|]. split; [by intros ->|].
  intros other. by apply jwt_secret_existing_id with databag.
Qed.

Lemma jwt_secret_published_read_only_witness :
  snd (_jwt_secret ready_host world_stale_id) = world_stale_id ∧
  fst (_jwt_secret ready_host world_stale_id) = Raise SecretNotFoundError.
Proof.
  destruct (jwt_secret_published_read_only ready_host world_stale_id
              {[ "jwt-secret-id" := "secret:gone" ]} "secret:gone")
    as (Hsame & _ & Hgone & _); [reflexivity | reflexivity | discriminate |].
  split; [exact Hsame | apply Hgone; reflexivity].
Defined.

(** X8. When the leader creates the secret it draws one token and adds one
    secret; every other secret of the store and every other key of the peer
    databag stays as it was, and so do the status, the environment, the
    ports and the calls of the runner. *)
Theorem jwt_secret_creation_frame (host : Host) (w : World) databag :
  is_leader host = true →
  peers_data w = Some databag →
  truthy (databag !! "jwt-secret-id") = false →
  let w' := snd (_jwt_secret host w) in
  let sid := fresh_secret_id host (secrets_added w) in
  tokens_drawn w' = S (tokens_drawn w) ∧
  secrets_added w' = S (secrets_added w) ∧
  (∀ k, k ≠ sid → secret_store w' !! k = secret_store w !! k) ∧
  (∀ k, k ≠ "jwt-secret-id" →
     peers_data w' ≫= (λ d, d !! k) = databag !! k) ∧
  unit_status w' = unit_status w ∧ environ w' = environ w ∧
  opened_ports w' = opened_ports w ∧ runner_calls w' = runner_calls w.
Proof.
  intros Hl Hp Hid.
  rewrite (jwt_secret_leader_creates host w databag Hp Hid Hl). simpl.
  split; [done|]. split; [done|].
  split; [intros k Hk; by rewrite lookup_insert_ne|].
  split; [intros k Hk; by rewrite lookup_insert_ne|]. done.
Qed.

Lemma jwt_secret_creation_frame_witness :
  tokens_drawn (snd (_jwt_secret ready_host world_other_key)) = 1 ∧
  peers_data (snd (_jwt_secret ready_host world_other_key)) ≫= (λ d, d !! "other")
  = Some "x".
Proof.
  destruct (jwt_secret_creation_frame ready_host world_other_key
              {[ "other" := "x" ]})
    as (Htok & _ & _ & Hbag & _); [reflexivity | reflexivity | reflexivity |].
  split; [exact Htok | by apply Hbag].
Defined.

(** X9. The secret the leader created is the one every unit resolves: on
    the state the leader's call left, the call of any unit returns the same
    token and changes nothing. *)
Theorem jwt_secret_units_agree (leader unit : Host) (w : World) databag :
  is_leader leader = true →
  peers_data w = Some databag →
  truthy (databag !! "jwt-secret-id") = false →
  fresh_secret_id leader (secrets_added w) ≠ "" →
  _jwt_secret unit (snd (_jwt_secret leader w))
  = (fst (_jwt_secret leader w), snd (_jwt_secret leader w)) ∧
  fst (_jwt_secret leader w) = Ok (Some (token_hex leader (tokens_drawn w))).
Proof.
  intros Hl Hp Hid Hne.
  rewrite (jwt_secret_leader_creates leader w databag Hp Hid Hl). simpl.
  split; [|done].
  rewrite (jwt_secret_existing_id unit (after_creation leader databag w)
             (<["jwt-secret-id" := fresh_secret_id leader (secrets_added w)]> databag)
             (fresh_secret_id leader (secrets_added w)));
    [| done | by rewrite lookup_insert_eq | done].
  simpl. by rewrite lookup_insert_eq, lookup_singleton_eq.
Qed.

Lemma jwt_secret_units_agree_witness :
  _jwt_secret follower_host (snd (_jwt_secret ready_host world_with_peers))
  = (Ok (Some "a1b2c3-0"), snd (_jwt_secret ready_host world_with_peers)).
Proof.
  destruct (jwt_secret_units_agree ready_host follower_host world_with_peers ∅)
    as [Hagree Htok]; [reflexivity | reflexivity | reflexivity | discriminate |].
  rewrite Hagree. f_equal.
Defined.

Lemma jwt_secret_again (host : Host) (w : World) :
  fresh_secret_id host (secrets_added w) ≠ "" →
  _jwt_secret host (snd (_jwt_secret host w))
  = (fst (_jwt_secret host w), snd (_jwt_secret host w)).
Proof.
  intros Hne. destruct (peers_data w) as [databag|] eqn:Hp.
  - destruct (truthy (databag !! "jwt-secret-id")) eqn:Hid.
    + apply truthy_Some_inv in Hid as (sid & Hid & Hsid).
      rewrite !(jwt_secret_existing_id host w databag sid Hp Hid Hsid). simpl.
      by rewrite !(jwt_secret_existing_id host w databag sid Hp Hid Hsid).
    + destruct (is_leader host) eqn:Hl.
      * rewrite (jwt_secret_leader_creates host w databag Hp Hid Hl). simpl.
        rewrite (jwt_secret_existing_id host (after_creation host databag w)
                   (<["jwt-secret-id" := fresh_secret_id host (secrets_added w)]>
                      databag)
                   (fresh_secret_id host (secrets_added w)));
          [| done | by rewrite lookup_insert_eq | done].
        simpl. by rewrite lookup_insert_eq, lookup_singleton_eq.
      * rewrite !(jwt_secret_follower_no_id host w databag Hp Hid Hl). simpl.
        by rewrite !(jwt_secret_follower_no_id host w databag Hp Hid Hl).
  - rewrite !(jwt_secret_no_relation host w Hp). simpl.
    by rewrite !(jwt_secret_no_relation host w Hp).
Qed.

Lemma jwt_secret_settles (host : Host) (w : World) :
  fresh_secret_id host (secrets_added w) ≠ "" →
  snd (_jwt_secret host (snd (_jwt_secret host w))) = snd (_jwt_secret host w).
Proof.
  intros Hne. by rewrite jwt_secret_again.
Qed.

Lemma jwt_secret_calls_fixed (host : Host) (w : World) n :
  snd (_jwt_secret host w) = w → jwt_secret_calls host n w = w.
Proof.
  intros Hfix. induction n as [|n IH]; [done|]. simpl. by rewrite Hfix.
Qed.

(** X10. Any number of calls in a row leaves the state the first call left:
    on every unit and from every state at most one secret is created and at
    most one token drawn, provided the host gives a new secret a non-empty
    id. *)
Theorem jwt_secret_calls_create_once (host : Host) (w : World) (n : nat) :
  fresh_secret_id host (secrets_added w) ≠ "" →
  jwt_secret_calls host (S n) w = snd (_jwt_secret host w) ∧
  (secrets_added (jwt_secret_calls host n w) ≤ S (secrets_added w))%nat ∧
  (tokens_drawn (jwt_secret_calls host n w) ≤ S (tokens_drawn w))%nat.
Proof.
  intros Hne.
  assert (jwt_secret_calls host (S n) w = snd (_jwt_secret host w)) as Hall.
  { simpl. apply jwt_secret_calls_fixed. by apply jwt_secret_settles. }
  split; [done|].
  assert ((secrets_added (snd (_jwt_secret host w)) ≤ S (secrets_added w))%nat ∧
          (tokens_drawn (snd (_jwt_secret host w)) ≤ S (tokens_drawn w))%nat)
    as Hone.
  { unfold _jwt_secret, get_secret, draw_token_hex, add_secret, peers_setitem,
      getitem.
    unfold_monad. simpl. repeat case_match; simplify_eq/=; lia. }
  destruct n as [|n]; [simpl; lia|].
  assert (jwt_secret_calls host (S n) w = snd (_jwt_secret host w)) as ->; [|done].
  simpl. apply jwt_secret_calls_fixed. by apply jwt_secret_settles.
Qed.

Lemma jwt_secret_calls_create_once_witness :
  jwt_secret_calls ready_host 5 world_with_peers
  = snd (_jwt_secret ready_host world_with_peers) ∧
  (secrets_added (jwt_secret_calls ready_host 4 world_with_peers) ≤ 1)%nat.
Proof.
  destruct (jwt_secret_calls_create_once ready_host world_with_peers 4)
    as (Hall & Hone & _); [discriminate |].
  split; [exact Hall | exact Hone].
Defined.

(** ** The handlers under the dispatcher *)

Lemma jwt_secret_status (host : Host) (w : World) (s : Status) :
  _jwt_secret host (with_unit_status s w)
  = (fst (_jwt_secret host w), with_unit_status s (snd (_jwt_secret host w))).
Proof.
  unfold _jwt_secret, get_secret, draw_token_hex, add_secret, peers_setitem,
    getitem.
  unfold_monad. simpl. repeat case_match; simplify_eq/=; done.
Qed.

Lemma jwt_secret_environ (host : Host) (w : World) (env : gmap string string) :
  _jwt_secret host (with_environ env w)
  = (fst (_jwt_secret host w), with_environ env (snd (_jwt_secret host w))).
Proof.
  unfold _jwt_secret, get_secret, draw_token_hex, add_secret, peers_setitem,
    getitem.
  unfold_monad. simpl. repeat case_match; simplify_eq/=; done.
Qed.

Lemma set_proxy_status (w : World) (s : Status) :
  _set_proxy (with_unit_status s w)
  = (Ok tt, with_unit_status s (snd (_set_proxy w))).
Proof.
  unfold _set_proxy, environ_setitem. unfold_monad. simpl.
  by destruct (truthy (environ w !! "JUJU_CHARM_HTTP_PROXY")).
Qed.

Lemma set_proxy_returns (w : World) :
  _set_proxy w = (Ok tt, with_environ (environ (snd (_set_proxy w))) w).
Proof.
  unfold _set_proxy, environ_setitem. unfold_monad. simpl.
  destruct (truthy (environ w !! "JUJU_CHARM_HTTP_PROXY")); by destruct w.
Qed.

Lemma jwt_secret_raises_iff (host : Host) (w : World) (e : exn) :
  fst (_jwt_secret host w) = Raise e ↔ stale_secret_id w ∧ e = SecretNotFoundError.
Proof.
  unfold stale_secret_id. destruct (peers_data w) as [databag|] eqn:Hp.
  - destruct (truthy (databag !! "jwt-secret-id")) eqn:Hid.
    + apply truthy_Some_inv in Hid as (sid & Hid & Hsid).
      rewrite (jwt_secret_existing_id host w databag sid Hp Hid Hsid). simpl.
      destruct (secret_store w !! sid) as [content|] eqn:Hstore.
      * split; [done|]. intros [(d & sid' & [= <-] & Hid' & _ & Hnone) _].
        congruence.
      * split; [intros [= <-]; split; [by exists databag, sid | done]|].
        by intros [_ ->].
    + assert (∀ r w', _jwt_secret host w = (Ok r, w') →
                fst (_jwt_secret host w) = Raise e ↔
                (∃ d sid, Some databag = Some d ∧ d !! "jwt-secret-id" = Some sid ∧
                          sid ≠ "" ∧ secret_store w !! sid = None) ∧
                e = SecretNotFoundError) as Hok.
      { intros r w' ->. split; [done|].
        intros [(d & sid & [= <-] & Hsid & Hne & _) _].
        rewrite Hsid, truthy_Some_nonempty in Hid; done. }
      destruct (is_leader host) eqn:Hl.
      * by eapply Hok, jwt_secret_leader_creates.
      * by eapply Hok, jwt_secret_follower_no_id.
  - rewrite (jwt_secret_no_relation host w Hp). simpl.
    split; [done | by intros [(d & sid & ? & _) _]].
Qed.

Lemma database_created_unfold (host : Host) (w : World) rid :
  database_relation host = Some rid →
  _on_database_created host w =
    match relation_data host !! rid with
    | None =>
        (Raise (KeyError (pretty rid)),
         with_unit_status (MaintenanceStatus "Attempting to update Ratings config.") w)
    | Some _ =>
        match fst (_jwt_secret host w) with
        | Raise e =>
            (Raise e,
             with_unit_status
               (MaintenanceStatus "Attempting to update Ratings config.")
               (snd (_jwt_secret host w)))
        | Ok _ =>
            (Ok tt,
             with_unit_status blocked_no_ratings
               (snd (_set_proxy (snd (_jwt_secret host w)))))
        end
    end.
Proof.
  intros Hrel. unfold _on_database_created, _update_service_config.
  rewrite Hrel. unfold_monad. simpl.
  set (w0 := with_unit_status _ w).
  unfold _db_connection_string. rewrite Hrel.
  destruct (relation_data host !! rid) as [data|]; [|done].
  assert (∀ s : string, ret s w0 = (Ok s, w0)) as Hret by done.
  destruct (truthy (data !! "username") && truthy (data !! "password")
            && truthy (data !! "endpoints")); unfold_monad;
    unfold w0; rewrite jwt_secret_status;
    (destruct (fst (_jwt_secret host w)) as [jwt|e]; [|done]);
    by rewrite set_proxy_status.
Qed.

(** X11. Which deliveries let an exception out of the handler.  Install and
    upgrade never do.  Start does exactly when the runner's [run] raises,
    with that error.  Database-created does exactly when the relation
    exists and either the fetched relation data has no entry for it
    (KeyError) or the peer databag publishes a secret id the store does not
    know (SecretNotFoundError): both steps stand before the [try]
    statement. *)
Theorem dispatch_raises_iff (host : Host) (ev : Event) (w : World) (e : exn) :
  fst (dispatch host ev w) = Raise e ↔
  (ev = StartEvent ∧
   ∃ text, run_raises (runner host) = Some text ∧ e = ExternalError text) ∨
  (ev = DatabaseCreatedEvent ∧
   ∃ rid, database_relation host = Some rid ∧
     ((relation_data host !! rid = None ∧ e = KeyError (pretty rid)) ∨
      (is_Some (relation_data host !! rid) ∧ stale_secret_id w ∧
       e = SecretNotFoundError))).
Proof.
  destruct ev; simpl.
  - (* install *)
    split; [|by intros [[? _]|[? _]]].
    unfold _on_install, runner_install, call_runner. unfold_monad. simpl.
    by destruct (install_raises (runner host)).
  - (* start *)
    rewrite on_start_unfold.
    destruct (run_raises (runner host)) as [text|]; simpl.
    + split.
      * intros [= <-]. left. split; [done|]. by exists text.
      * intros [[_ (text' & [= <-] & ->)]|[? _]]; done.
    + split; [done|]. intros [[_ (text' & ? & _)]|[? _]]; done.
  - (* upgrade *)
    split; [done | by intros [[? _]|[? _]]].
  - (* database-created *)
    destruct (database_relation host) as [rid|] eqn:Hrel.
    + rewrite (database_created_unfold host w rid Hrel).
      destruct (relation_data host !! rid) as [data|] eqn:Hdata; simpl.
      * pose proof (jwt_secret_raises_iff host w e) as Hjwt.
        destruct (fst (_jwt_secret host w)) as [jwt|e'] eqn:Hres; simpl.
        -- split; [done|].
           intros [[? _]|[_ (rid' & [= <-] & [[? _]|(_ & Hstale & He)])]];
             [done | congruence |].
           assert (Ok jwt = Raise e) by (by apply Hjwt). done.
        -- split.
           ++ intros [= ->]. right. split; [done|]. exists rid.
              split; [done|]. right. split; [by exists data|]. by apply Hjwt.
           ++ intros [[? _]|[_ (rid' & [= <-] & [[? _]|(_ & Hstale & He)])]];
                [done | congruence |].
              f_equal. assert (Raise e' = Raise e) as [= ->] by (by apply Hjwt).
              done.
      * split.
        -- intros [= <-]. right. split; [done|]. exists rid.
           split; [done|]. by left.
        -- intros [[? _]|[_ (rid' & [= <-] & [[_ ->]|([? ?] & _)])]];
             [done | done | congruence].
    + unfold _on_database_created, _update_service_config. rewrite Hrel.
      split; [done|]. intros [[? _]|[_ (rid & ? & _)]]; done.
Qed.

(** X12. The status a delivery ends with, whenever the handler returns:
    install ends blocked on the installer's error or in maintenance,
    upgrade in maintenance, start active, database-created waiting without
    the relation and blocked on the missing [_ratings] attribute with it.
    Start is the only event after which the unit is active. *)
Theorem dispatch_status (host : Host) (ev : Event) (w : World) :
  fst (dispatch host ev w) = Ok tt →
  unit_status (snd (dispatch host ev w)) =
    match ev with
    | InstallEvent =>
        match install_raises (runner host) with
        | Some text => BlockedStatus text
        | None => MaintenanceStatus "Installation complete, waiting for database."
        end
    | StartEvent => ActiveStatus ""
    | UpgradeCharmEvent => MaintenanceStatus "upgrade hook called"
    | DatabaseCreatedEvent =>
        match database_relation host with
        | Some _ => blocked_no_ratings
        | None => WaitingStatus "Waiting for database relation"
        end
    end.
Proof.
  destruct ev; simpl.
  - intros _. unfold _on_install, runner_install, call_runner.
    unfold_monad. simpl. by destruct (install_raises (runner host)).
  - rewrite on_start_unfold. by destruct (run_raises (runner host)).
  - done.
  - destruct (database_relation host) as [rid|] eqn:Hrel.
    + rewrite (database_created_unfold host w rid Hrel).
      destruct (relation_data host !! rid); [|done].
      by destruct (fst (_jwt_secret host w)).
    + intros _. unfold _on_database_created, _update_service_config.
      by rewrite Hrel.
Qed.

Lemma dispatch_status_witness :
  unit_status (snd (dispatch ready_host DatabaseCreatedEvent world_with_proxy))
  = blocked_no_ratings ∧
  unit_status (snd (dispatch ready_host UpgradeCharmEvent world_with_proxy))
  = MaintenanceStatus "upgrade hook called".
Proof.
  split.
  - apply (dispatch_status ready_host DatabaseCreatedEvent world_with_proxy).
    reflexivity.
  - apply (dispatch_status ready_host UpgradeCharmEvent world_with_proxy).
    reflexivity.
Defined.

(** X13. A database-created delivery that returns with the relation present
    has done what stands before its [try] statement and no more: the state
    it leaves is the one left by the secret resolution followed by the
    proxy configuration, under the blocked status.  On a leader the secret
    is thus created and published although no configuration is pushed. *)
Theorem database_created_effects (host : Host) (w : World) :
  is_Some (database_relation host) →
  fst (_on_database_created host w) = Ok tt →
  snd (_on_database_created host w)
  = with_unit_status blocked_no_ratings
      (snd (_set_proxy (snd (_jwt_secret host w)))).
Proof.
  intros [rid Hrel]. rewrite (database_created_unfold host w rid Hrel).
  destruct (relation_data host !! rid); [|done].
  by destruct (fst (_jwt_secret host w)).
Qed.

Lemma database_created_effects_witness :
  peers_data (snd (_on_database_created ready_host world_with_proxy))
  = Some {[ "jwt-secret-id" := "secret:0" ]} ∧
  secret_store (snd (_on_database_created ready_host world_with_proxy))
    !! "secret:0" = Some {[ "jwt-secret" := "a1b2c3-0" ]} ∧
  environ (snd (_on_database_created ready_host world_with_proxy)) !! "HTTPS_PROXY"
  = Some "http://squid:3128".
Proof.
  rewrite (database_created_effects ready_host world_with_proxy);
    [| by exists 7 | reflexivity].
  vm_compute. repeat split.
Defined.

(** ** Redelivery of the database-created event *)

Lemma database_created_twice (host : Host) (w : World) :
  fresh_secret_id host (secrets_added w) ≠ "" →
  fst (_on_database_created host w) = Ok tt →
  _on_database_created host (snd (_on_database_created host w))
  = (Ok tt, snd (_on_database_created host w)).
Proof.
  intros Hne. destruct (database_relation host) as [rid|] eqn:Hrel.
  - rewrite !(database_created_unfold host _ rid Hrel).
    destruct (relation_data host !! rid) as [data|]; [|done].
    destruct (fst (_jwt_secret host w)) as [jwt|e] eqn:Hfirst; [|done].
    intros _. simpl.
    set (w2 := snd (_jwt_secret host w)).
    set (env2 := environ (snd (_set_proxy w2))).
    assert (snd (_set_proxy w2) = with_environ env2 w2) as Hproxy
      by (by rewrite (set_proxy_returns w2) at 1).
    assert (_jwt_secret host (with_unit_status blocked_no_ratings (snd (_set_proxy w2)))
            = (Ok jwt, with_unit_status blocked_no_ratings (snd (_set_proxy w2))))
      as Hagain.
    { rewrite jwt_secret_status, Hproxy, jwt_secret_environ.
      unfold w2. by rewrite (jwt_secret_again host w Hne), Hfirst. }
    rewrite Hagain. simpl. rewrite set_proxy_status. simpl.
    by rewrite set_proxy_twice.
  - unfold _on_database_created, _update_service_config. by rewrite Hrel.
Qed.

Lemma deliveries_fixed (host : Host) (ev : Event) (w : World) (n : nat) :
  dispatch host ev w = (Ok tt, w) → deliveries host ev n w = (Ok tt, w).
Proof.
  intros Hfix. induction n as [|n IH]; [done|].
  simpl. unfold_monad. by rewrite Hfix.
Qed.

(** X14. The database-created handler can be delivered again: when the
    first delivery returns, any number of further deliveries return as well
    and leave the state the first one left (one secret at most, the same
    proxy variables, the same status), provided the host gives a new secret
    a non-empty id. *)
Theorem database_created_redelivery (host : Host) (w : World) (n : nat) :
  fresh_secret_id host (secrets_added w) ≠ "" →
  fst (dispatch host DatabaseCreatedEvent w) = Ok tt →
  deliveries host DatabaseCreatedEvent (S n) w
  = (Ok tt, snd (dispatch host DatabaseCreatedEvent w)).
Proof.
  intros Hne Hfirst. simpl in *. unfold_monad.
  pose proof (database_created_twice host w Hne Hfirst) as Htwice.
  destruct (_on_database_created host w) as [[[]|e] w1]; [|done].
  simpl in *. by apply deliveries_fixed.
Qed.

Lemma database_created_redelivery_witness :
  deliveries ready_host DatabaseCreatedEvent 3 world_with_proxy
  = (Ok tt, snd (dispatch ready_host DatabaseCreatedEvent world_with_proxy)).
Proof.
  apply (database_created_redelivery ready_host world_with_proxy 2);
    [discriminate | reflexivity].
Defined.
